(** * Time-series router of webviz: a shallow embedding

    Source: [backend/src/fastapi_app/routers/timeseries/router.py].

    The router is glue: every endpoint builds a [SummaryAccess] handle, asks
    the series store or the statistics service for data and repackages the
    answer.  The endpoints are embedded as programs over the requests they
    make to those collaborators ([prog]); a collaborator is any function
    answering the requests ([handler]), so a statement proved for every
    handler holds whatever the store contains.

    Conventions.
    - [datetime.datetime] is a [Z] (an instant on a discrete time line),
      Python [int] is [Z], [float] is [Q]: the router copies the numbers and
      never computes with them.
    - [Optional[T]] is [option T]; a Python function that falls off its end
      returns [None].
    - A raised exception ends the program with [Raised]. *)

From Stdlib Require Import ZArith QArith List String Bool Lia.
Import ListNotations.

Local Open Scope string_scope.
Local Open Scope list_scope.
Local Open Scope Z_scope.

Definition timestamp : Type := Z.

(** ** Exceptions and outcomes *)

Inductive exn : Type :=
| HTTPException (status_code : Z) (detail : string)
| CollaboratorError (what : string).

Inductive outcome (A : Type) : Type :=
| Returned (a : A)
| Raised (e : exn).

Arguments Returned {A} a.
Arguments Raised {A} e.

(** ** Types of the collaborators *)

(** [AuthenticatedUser] with its accessor [get_sumo_access_token]. *)
Record AuthenticatedUser : Type := {
  get_sumo_access_token : string
}.

(** The handle built by [SummaryAccess(token, case_uuid, ensemble_name)]. *)
Record SummaryAccess : Type := {
  access_token : string;
  access_case_uuid : string;
  access_ensemble_name : string
}.

(** [vec.metadata], of which the router reads [unit] and [is_rate]. *)
Record VectorMetadata : Type := {
  unit : string;
  is_rate : bool
}.

(** One element of what [access.get_vector] returns. *)
Record RealizationVector : Type := {
  realization : Z;
  timestamps : list timestamp;
  values : list Q;
  metadata : VectorMetadata
}.

(** Modelled from the spec: the service-side [Frequency] enumeration of
    [services/sumo_access/summary_access.py], which is not under src/.  The
    spec lists the members RAW, DAILY, MONTHLY and YEARLY; a member's value
    is its name. *)
Inductive Frequency : Type := RAW | DAILY | MONTHLY | YEARLY.

Definition Frequency_value (f : Frequency) : string :=
  match f with
  | RAW => "RAW"
  | DAILY => "DAILY"
  | MONTHLY => "MONTHLY"
  | YEARLY => "YEARLY"
  end.

Definition Frequency_members : list Frequency := [RAW; DAILY; MONTHLY; YEARLY].

(** Modelled from the spec: [Frequency.from_string_value], not under src/.
    The router hands its result to the store as the optional resampling
    frequency ("absent = raw"), so the lookup answers with the member whose
    value is the string, and with no frequency when there is none. *)
Definition Frequency_from_string_value (value : string) : option Frequency :=
  find (fun f => String.eqb (Frequency_value f) value) Frequency_members.

(** Modelled from the spec: the service-side statistic kinds of
    [services/summary_vector_statistics.py], not under src/: MEAN, MIN, MAX,
    STD and the percentiles P10 and P90. *)
Inductive StatisticFunction : Type := MEAN | MIN | MAX | STD | P10 | P90.

Definition StatisticFunction_members : list StatisticFunction :=
  [MEAN; MIN; MAX; STD; P10; P90].

(** ** The API schemas *)

Module schemas.

(** Modelled from the spec: [schemas.Frequency], not under src/; the request
    names a frequency by the same values as the service. *)
Inductive Frequency : Type := RAW | DAILY | MONTHLY | YEARLY.

Definition value (f : Frequency) : string :=
  match f with
  | RAW => "RAW"
  | DAILY => "DAILY"
  | MONTHLY => "MONTHLY"
  | YEARLY => "YEARLY"
  end.

(** Modelled from the spec: [schemas.StatisticFunction], not under src/. *)
Inductive StatisticFunction : Type := MEAN | MIN | MAX | STD | P10 | P90.

(** [schemas.VectorDescription(name=, descriptive_name=, has_historical=)]. *)
Record VectorDescription : Type := {
  name : string;
  descriptive_name : string;
  has_historical : bool
}.

(** [schemas.VectorRealizationData(realization=, timestamps=, values=, unit=,
    is_rate=)]. *)
Record VectorRealizationData : Type := {
  realization : Z;
  timestamps : list timestamp;
  values : list Q;
  unit : string;
  is_rate : bool
}.

End schemas.

(** The types the router only passes along: the table returned by
    [get_vector_table], the result of [compute_vector_statistics], the
    payload built by the converter and the parsed expression. *)
Class OpaqueTypes : Type := {
  Table : Type;
  VectorStatistics : Type;
  VectorStatisticData : Type;
  VectorExpressionInfo : Type
}.

Module converters.

(** Modelled from the spec: [converters.to_service_statistic_functions], not
    under src/.  "If no statistics are specified, all supported statistics
    are computed"; a given list is translated kind by kind. *)
Definition to_service_statistic_function (f : schemas.StatisticFunction)
  : StatisticFunction :=
  match f with
  | schemas.MEAN => MEAN
  | schemas.MIN => MIN
  | schemas.MAX => MAX
  | schemas.STD => STD
  | schemas.P10 => P10
  | schemas.P90 => P90
  end.

Definition to_service_statistic_functions
  (api_stat_funcs : option (list schemas.StatisticFunction))
  : list StatisticFunction :=
  match api_stat_funcs with
  | None => StatisticFunction_members
  | Some funcs => map to_service_statistic_function funcs
  end.

End converters.

(** ** Requests to the collaborators and programs over them *)

Section Router.

Context {OT : OpaqueTypes}.

(** What [print] is given in [get_realizations_calculated_vector_data]. *)
Inductive printed : Type :=
| the_expression (expression : VectorExpressionInfo)
| the_type_of (expression : VectorExpressionInfo).

Inductive Call : Type :=
| get_vector_names (access : SummaryAccess)
| get_vector (access : SummaryAccess) (vector_name : string)
    (resampling_frequency : option Frequency) (realizations : option (list Z))
| get_vector_table (access : SummaryAccess) (vector_name : string)
    (resampling_frequency : option Frequency) (realizations : option (list Z))
| compute_vector_statistics (vector_table : Table) (vector_name : string)
    (statistic_functions : list StatisticFunction)
| to_api_vector_statistic_data (statistics : VectorStatistics)
    (vector_metadata : VectorMetadata)
| print (what : printed).

(** The type of the answer to each request.  [compute_vector_statistics]
    answers with the statistics or with the falsy [None]. *)
Definition Resp (c : Call) : Type :=
  match c with
  | get_vector_names _ => list string
  | get_vector _ _ _ _ => list RealizationVector
  | get_vector_table _ _ _ _ => (Table * VectorMetadata)%type
  | compute_vector_statistics _ _ _ => option VectorStatistics
  | to_api_vector_statistic_data _ _ => VectorStatisticData
  | print _ => Datatypes.unit
  end.

Inductive prog (A : Type) : Type :=
| Ret (a : A)
| Raise (e : exn)
| Do (c : Call) (k : Resp c -> prog A).

Arguments Ret {A} a.
Arguments Raise {A} e.
Arguments Do {A} c k.

Fixpoint bind {A B : Type} (m : prog A) (f : A -> prog B) : prog B :=
  match m with
  | Ret a => f a
  | Raise e => Raise e
  | Do c k => Do c (fun r => bind (k r) f)
  end.

Definition call (c : Call) : prog (Resp c) := Do c Ret.

Notation "x <- m ;; k" := (bind m (fun x => k))
  (at level 61, m at next level, right associativity).

(** A collaborator answers every request or raises. *)
Definition handler : Type := forall c : Call, outcome (Resp c).

Fixpoint run {A : Type} (h : handler) (m : prog A) : outcome A :=
  match m with
  | Ret a => Returned a
  | Raise e => Raised e
  | Do c k =>
      match h c with
      | Returned r => run h (k r)
      | Raised e => Raised e
      end
  end.

(** The requests a program makes, in order, when answered by [h]. *)
Fixpoint calls {A : Type} (h : handler) (m : prog A) : list Call :=
  match m with
  | Ret _ | Raise _ => []
  | Do c k =>
      c :: match h c with
           | Returned r => calls h (k r)
           | Raised _ => []
           end
  end.

(** ** The endpoints *)

(** [get_vector_names_and_descriptions], router.py lines 20-39. *)
Definition get_vector_names_and_descriptions
  (authenticated_user : AuthenticatedUser) (case_uuid ensemble_name : string)
  (exclude_all_values_zero exclude_all_values_constant : bool)
  : prog (list schemas.VectorDescription) :=
  let access :=
    Build_SummaryAccess (get_sumo_access_token authenticated_user)
      case_uuid ensemble_name in
  vector_names <- call (get_vector_names access) ;;
  let ret_arr :=
    map (fun vector_name =>
           schemas.Build_VectorDescription vector_name vector_name false)
        vector_names in
  Ret ret_arr.

(** [get_realizations_vector_data], router.py lines 42-65.  The loop appends
    one record per fetched series. *)
Definition get_realizations_vector_data
  (authenticated_user : AuthenticatedUser) (case_uuid ensemble_name : string)
  (vector_name : string) (resampling_frequency : option schemas.Frequency)
  (realizations : option (list Z)) (relative_to_timestamp : option timestamp)
  : prog (list schemas.VectorRealizationData) :=
  let access :=
    Build_SummaryAccess (get_sumo_access_token authenticated_user)
      case_uuid ensemble_name in
  let sumo_freq :=
    Frequency_from_string_value
      (match resampling_frequency with
       | Some f => schemas.value f
       | None => "dummy"
       end) in
  sumo_vec_arr <- call (get_vector access vector_name sumo_freq realizations) ;;
  let ret_arr :=
    fold_left
      (fun ret_arr vec =>
         ret_arr ++
         [schemas.Build_VectorRealizationData
            (realization vec) (timestamps vec) (values vec)
            (unit (metadata vec)) (is_rate (metadata vec))])
      sumo_vec_arr [] in
  Ret ret_arr.

(** [get_timestamps], router.py lines 81-96: a docstring and [...]; the
    function makes no request and returns [None]. *)
Definition get_timestamps
  (authenticated_user : AuthenticatedUser) (case_uuid ensemble_name : string)
  (resampling_frequency : option schemas.Frequency)
  (realizations : option (list Z)) : prog (option (list timestamp)) :=
  Ret None.

(** [get_statistical_vector_data], router.py lines 110-138. *)
Definition get_statistical_vector_data
  (authenticated_user : AuthenticatedUser) (case_uuid ensemble_name : string)
  (vector_name : string) (resampling_frequency : schemas.Frequency)
  (statistic_functions : option (list schemas.StatisticFunction))
  (realizations : option (list Z)) (relative_to_timestamp : option timestamp)
  : prog VectorStatisticData :=
  let access :=
    Build_SummaryAccess (get_sumo_access_token authenticated_user)
      case_uuid ensemble_name in
  let service_freq :=
    Frequency_from_string_value (schemas.value resampling_frequency) in
  let service_stat_funcs_to_compute :=
    converters.to_service_statistic_functions statistic_functions in
  table_and_metadata <-
    call (get_vector_table access vector_name service_freq realizations) ;;
  let '(vector_table, vector_metadata) := table_and_metadata in
  statistics <-
    call (compute_vector_statistics vector_table vector_name
            service_stat_funcs_to_compute) ;;
  match statistics with
  | None => Raise (HTTPException 404 "Could not compute statistics")
  | Some statistics =>
      ret_data <-
        call (to_api_vector_statistic_data statistics vector_metadata) ;;
      Ret ret_data
  end.

(** [get_realizations_calculated_vector_data], router.py lines 141-153. *)
Definition get_realizations_calculated_vector_data
  (authenticated_user : AuthenticatedUser) (case_uuid ensemble_name : string)
  (expression : VectorExpressionInfo)
  (resampling_frequency : option schemas.Frequency)
  (relative_to_timestamp : option timestamp) : prog string :=
  _ <- call (print (the_expression expression)) ;;
  _ <- call (print (the_type_of expression)) ;;
  Ret "hei".

End Router.

Arguments Ret {OT A} a.
Arguments Raise {OT A} e.
Arguments Do {OT A} c k.

(** ** Vocabulary of the statements *)

(** The record the loop of [get_realizations_vector_data] builds from one
    fetched series. *)
Definition to_realization_data (vec : RealizationVector)
  : schemas.VectorRealizationData :=
  schemas.Build_VectorRealizationData
    (realization vec) (timestamps vec) (values vec)
    (unit (metadata vec)) (is_rate (metadata vec)).

(** Field by field, [d] is the series [vec]. *)
Definition copied (vec : RealizationVector) (d : schemas.VectorRealizationData)
  : Prop :=
  schemas.realization d = realization vec /\
  schemas.timestamps d = timestamps vec /\
  schemas.values d = values vec /\
  schemas.unit d = unit (metadata vec) /\
  schemas.is_rate d = is_rate (metadata vec).

(** The handle a request to the series store goes through; the statistics
    service, the converter and [print] take none. *)
Definition access_of {OT : OpaqueTypes} (c : Call) : option SummaryAccess :=
  match c with
  | get_vector_names access
  | get_vector access _ _ _
  | get_vector_table access _ _ _ => Some access
  | compute_vector_statistics _ _ _
  | to_api_vector_statistic_data _ _
  | print _ => None
  end.

(** Every store request among [requests] goes through the handle of this
    user, case and ensemble. *)
Definition scoped_to {OT : OpaqueTypes} (authenticated_user : AuthenticatedUser)
  (case_uuid ensemble_name : string) (requests : list Call) : Prop :=
  forall c access,
    In c requests -> access_of c = Some access ->
    access = Build_SummaryAccess (get_sumo_access_token authenticated_user)
               case_uuid ensemble_name.

(** A fetched series, or a returned record, with one value per timestamp. *)
Definition aligned_series (vec : RealizationVector) : Prop :=
  List.length (values vec) = List.length (timestamps vec).

Definition aligned_data (d : schemas.VectorRealizationData) : Prop :=
  List.length (schemas.values d) = List.length (schemas.timestamps d).

(** ** The engine behind the store, as the specification describes it

    The resampling, alignment and baseline code lives in the services, none
    of which is under src/.  The definitions of this part follow the
    specification's wording; the endpoints above do not use them. *)

Module Resampler.

(** Modelled from the spec: a RawSeries of section 3, "ordered sequence of
    (timestamp, value) pairs with strictly increasing, unique timestamps";
    the services holding it are not under src/. *)
Definition RawSeries : Type := list (timestamp * Q).

Fixpoint strictly_increasing (ts : list timestamp) : bool :=
  match ts with
  | [] => true
  | t0 :: rest =>
      match rest with
      | [] => true
      | t1 :: _ => (t0 <? t1) && strictly_increasing rest
      end
  end.

(** Modelled from the spec: the rate policy of the Resampler (section 4.2),
    not under src/: "the value at a grid timestamp equals the value of the
    last raw point at or before it; grid points before the first raw point
    are absent".  The series is read in order and the value of every point
    at or before [t] replaces the one held. *)
Definition hold_step (t : timestamp) (held : option Q) (point : timestamp * Q)
  : option Q :=
  if fst point <=? t then Some (snd point) else held.

Definition step_hold (raw : RawSeries) (t : timestamp) : option Q :=
  fold_left (hold_step t) raw None.

(** Modelled from the spec: the cumulative policy of the Resampler (section
    4.2), not under src/: "linear interpolation between the two bracketing
    raw points for each grid timestamp that falls within [first_raw_ts,
    last_raw_ts]; grid points outside that range are marked absent". *)
Fixpoint interpolate (raw : RawSeries) (t : timestamp) : option Q :=
  match raw with
  | [] => None
  | (t0, v0) :: rest =>
      if t <? t0 then None
      else if t =? t0 then Some v0
      else
        match rest with
        | [] => None
        | (t1, v1) :: _ =>
            if t <? t1
            then Some (v0 + (v1 - v0) * (inject_Z (t - t0) / inject_Z (t1 - t0)))%Q
            else interpolate rest t
        end
  end.

Definition resample_at (raw : RawSeries) (is_rate : bool) (t : timestamp)
  : option Q :=
  if is_rate then step_hold raw t else interpolate raw t.

(** Modelled from the spec: [resample(raw_series, target_grid, is_rate)] of
    section 4.2, not under src/.  No target grid is RAW: the raw series is
    returned unchanged.  Otherwise there is one entry per grid timestamp,
    absent ([None]) where the policy gives no value. *)
Definition resample (raw : RawSeries) (target_grid : option (list timestamp))
  (is_rate : bool) : list (timestamp * option Q) :=
  match target_grid with
  | None => map (fun point => (fst point, Some (snd point))) raw
  | Some grid => map (fun t => (t, resample_at raw is_rate t)) grid
  end.

End Resampler.

Module TimestampAligner.

(** Modelled from the spec: the RAW mode of the Timestamp Aligner (section
    4.3), not under src/: "a timestamp appears in the grid only if every
    realization has a raw point at exactly that timestamp". *)
Definition raw_intersection (raw_timestamps : list (list timestamp))
  : list timestamp :=
  match raw_timestamps with
  | [] => []
  | first :: others =>
      filter (fun t => forallb (existsb (Z.eqb t)) others) first
  end.

End TimestampAligner.

Module BaselineNormalizer.

(** Modelled from the spec: the baseline of section 4.4, not under src/: the
    value at the reference timestamp, resampled from the realization's
    original raw series with the policy of its kind. *)
Definition baseline (raw : RealizationVector) (reference_timestamp : timestamp)
  : option Q :=
  Resampler.resample_at (combine (timestamps raw) (values raw))
    (is_rate (metadata raw)) reference_timestamp.

(** What the specification asks of the answer [out] of an endpoint for one
    fetched series [vec] whose raw series is [raw]: with a baseline, [out]
    holds the realization with the baseline subtracted from every value;
    without one, the realization is absent from [out]. *)
Definition relative_to (raw vec : RealizationVector)
  (reference_timestamp : timestamp)
  (out : list schemas.VectorRealizationData) : Prop :=
  match baseline raw reference_timestamp with
  | Some b =>
      exists d, In d out /\
        schemas.realization d = realization vec /\
        Forall2 (fun v w => (w == v - b)%Q) (values vec) (schemas.values d)
  | None =>
      forall d, In d out -> schemas.realization d <> realization vec
  end.

End BaselineNormalizer.

(** ** A small ensemble to run the endpoints on *)

Module Demo.

(** The opaque types, for the example: a table is the list of the fetched
    series, statistics and payload are one value sequence per kind, an
    expression is its text. *)
Definition types : OpaqueTypes := {|
  Table := list RealizationVector;
  VectorStatistics := list (StatisticFunction * list Q);
  VectorStatisticData := list (StatisticFunction * list Q);
  VectorExpressionInfo := string
|}.

Definition user : AuthenticatedUser := {| get_sumo_access_token := "token" |}.

(** The expression of a calculated vector, the quotient of two vectors. *)
Definition a_over_b : @VectorExpressionInfo types := "A / B".

Definition rate_metadata : VectorMetadata :=
  {| unit := "SM3/DAY"; is_rate := true |}.

(** Realization 0 has raw points at 1, 2, 3 and realization 1 at 2, 3, 4. *)
Definition realization_0 : RealizationVector := {|
  realization := 0;
  timestamps := [1; 2; 3];
  values := [5#1; 7#1; 8#1];
  metadata := rate_metadata
|}.

Definition realization_1 : RealizationVector := {|
  realization := 1;
  timestamps := [2; 3; 4];
  values := [6#1; 9#1; 0#1];
  metadata := rate_metadata
|}.

Definition ensemble : list RealizationVector := [realization_0; realization_1].

(** A store holding the ensemble, whose statistics service finds nothing to
    compute. *)
Definition store : @handler types :=
  fun c =>
    match c as c0 return outcome (@Resp types c0) with
    | get_vector_names _ => Returned ["FOPR"; "FOPT"]
    | get_vector _ _ _ _ => Returned ensemble
    | get_vector_table _ _ _ _ => Returned (ensemble, rate_metadata)
    | compute_vector_statistics _ _ _ => Returned None
    | to_api_vector_statistic_data statistics _ => Returned statistics
    | print _ => Returned tt
    end.

(** The same store with a statistics service that answers: the mean of the
    empty table over the empty grid. *)
Definition computing_store : @handler types :=
  fun c =>
    match c as c0 return outcome (@Resp types c0) with
    | compute_vector_statistics _ _ funcs =>
        Returned (Some (map (fun f => (f, [])) funcs))
    | c0 => store c0
    end.

(** A store that cannot be reached: every request to it raises. *)
Definition unreachable_store : @handler types :=
  fun c =>
    match c as c0 return outcome (@Resp types c0) with
    | get_vector_names _
    | get_vector _ _ _ _
    | get_vector_table _ _ _ _ => Raised (CollaboratorError "sumo unreachable")
    | c0 => store c0
    end.

(** The store with a statistics service that raises. *)
Definition failing_statistics_store : @handler types :=
  fun c =>
    match c as c0 return outcome (@Resp types c0) with
    | compute_vector_statistics _ _ _ =>
        Raised (CollaboratorError "statistics failed")
    | c0 => store c0
    end.

End Demo.

(** ** Running programs *)

Section RouterFacts.

Context {OT : OpaqueTypes}.

Lemma run_bind (A B : Type) (h : handler) (m : prog A) (f : A -> prog B) :
  run h (bind m f) =
  match run h m with
  | Returned a => run h (f a)
  | Raised e => Raised e
  end.
Proof.
  induction m as [a | e | c k IH]; simpl; try reflexivity.
  destruct (h c) as [r | e]; [apply IH | reflexivity].
Qed.

Lemma calls_bind (A B : Type) (h : handler) (m : prog A) (f : A -> prog B) :
  calls h (bind m f) =
  calls h m ++
  match run h m with
  | Returned a => calls h (f a)
  | Raised _ => []
  end.
Proof.
  induction m as [a | e | c k IH]; simpl; try reflexivity.
  destruct (h c) as [r | e]; [now rewrite IH | reflexivity].
Qed.

(** A loop that appends one converted element per iteration builds the
    image of the list, after what was there. *)
Lemma append_loop (A B : Type) (f : A -> B) (l : list A) (acc : list B) :
  fold_left (fun ret_arr x => ret_arr ++ [f x]) l acc = acc ++ map f l.
Proof.
  revert acc; induction l as [| x l IH]; intros acc; simpl.
  - now rewrite app_nil_r.
  - rewrite IH, <- app_assoc. reflexivity.
Qed.

Lemma copied_map (arr : list RealizationVector) :
  Forall2 copied arr (map to_realization_data arr).
Proof.
  induction arr as [| vec arr IH]; simpl; constructor; [| exact IH].
  repeat split.
Qed.

(** What the endpoint asks of the store, and what it makes of the answer. *)
Lemma realizations_vector_data_run (h : handler)
  (authenticated_user : AuthenticatedUser) (case_uuid ensemble_name : string)
  (vector_name : string) (resampling_frequency : option schemas.Frequency)
  (realizations : option (list Z)) (relative_to_timestamp : option timestamp) :
  let request :=
    get_vector
      (Build_SummaryAccess (get_sumo_access_token authenticated_user)
         case_uuid ensemble_name)
      vector_name
      (Frequency_from_string_value
         (match resampling_frequency with
          | Some f => schemas.value f
          | None => "dummy"
          end))
      realizations in
  calls h (get_realizations_vector_data authenticated_user case_uuid
             ensemble_name vector_name resampling_frequency realizations
             relative_to_timestamp) = [request] /\
  run h (get_realizations_vector_data authenticated_user case_uuid
           ensemble_name vector_name resampling_frequency realizations
           relative_to_timestamp) =
  match h request with
  | Returned arr => Returned (map to_realization_data arr)
  | Raised e => Raised e
  end.
Proof.
  intros request. unfold get_realizations_vector_data.
  fold request. simpl.
  destruct (h request) as [arr | e]; simpl; [| split; reflexivity].
  split; [reflexivity |].
  f_equal. apply (append_loop _ _ to_realization_data arr []).
Qed.

End RouterFacts.

(** ** The vector list *)

(** C8: the list returned by [get_vector_names_and_descriptions] has exactly
    one element per vector name supplied by the series store, in the same
    order, and every element has [descriptive_name] equal to its [name] and
    [has_historical] equal to [False]. *)
Theorem vector_descriptions_follow_names :
  forall (OT : OpaqueTypes) (h : handler)
    (authenticated_user : AuthenticatedUser) (case_uuid ensemble_name : string)
    (exclude_all_values_zero exclude_all_values_constant : bool)
    (vector_names : list string),
    h (get_vector_names
         (Build_SummaryAccess (get_sumo_access_token authenticated_user)
            case_uuid ensemble_name)) = Returned vector_names ->
    exists ret_arr,
      run h (get_vector_names_and_descriptions authenticated_user case_uuid
               ensemble_name exclude_all_values_zero
               exclude_all_values_constant) = Returned ret_arr /\
      map schemas.name ret_arr = vector_names /\
      Forall (fun d => schemas.descriptive_name d = schemas.name d /\
                       schemas.has_historical d = false) ret_arr.
Proof.
  intros OT h user case_uuid ensemble_name z k vector_names Hnames.
  unfold get_vector_names_and_descriptions. simpl. rewrite Hnames.
  eexists; split; [reflexivity |].
  clear Hnames. induction vector_names as [| n names [IHn IHd]]; simpl.
  - split; [reflexivity | constructor].
  - split; [now rewrite IHn |].
    constructor; [split; reflexivity | exact IHd].
Qed.

Lemma vector_descriptions_follow_names_witness :
  exists ret_arr,
    run Demo.store
      (get_vector_names_and_descriptions Demo.user "case" "ens" false false)
    = Returned ret_arr /\
    map schemas.name ret_arr = ["FOPR"; "FOPT"] /\
    Forall (fun d => schemas.descriptive_name d = schemas.name d /\
                     schemas.has_historical d = false) ret_arr.
Proof.
  apply (vector_descriptions_follow_names Demo.types Demo.store Demo.user
           "case" "ens" false false ["FOPR"; "FOPT"]).
  reflexivity.
Defined.

(** C9: two calls to [get_vector_names_and_descriptions] that differ only in
    [exclude_all_values_zero] and [exclude_all_values_constant] make the same
    requests and, the store answering alike, return identical lists: the two
    filter flags have no effect. *)
Theorem exclusion_flags_have_no_effect :
  forall (OT : OpaqueTypes) (h : handler)
    (authenticated_user : AuthenticatedUser) (case_uuid ensemble_name : string)
    (zero constant zero' constant' : bool),
    run h (get_vector_names_and_descriptions authenticated_user case_uuid
             ensemble_name zero constant) =
    run h (get_vector_names_and_descriptions authenticated_user case_uuid
             ensemble_name zero' constant') /\
    calls h (get_vector_names_and_descriptions authenticated_user case_uuid
               ensemble_name zero constant) =
    calls h (get_vector_names_and_descriptions authenticated_user case_uuid
               ensemble_name zero' constant').
Proof.
  intros. split; reflexivity.
Qed.

(** ** Realization data *)

(** C10: the list returned by [get_realizations_vector_data] has exactly one
    [VectorRealizationData] per series returned by the series store, in the
    same order, with realization id, timestamps, values, unit and is_rate
    copied unchanged from the fetched series. *)
Theorem realization_data_copies_fetched_series :
  forall (OT : OpaqueTypes) (h : handler)
    (authenticated_user : AuthenticatedUser) (case_uuid ensemble_name : string)
    (vector_name : string) (resampling_frequency : option schemas.Frequency)
    (realizations : option (list Z)) (relative_to_timestamp : option timestamp)
    (sumo_vec_arr : list RealizationVector),
    h (get_vector
         (Build_SummaryAccess (get_sumo_access_token authenticated_user)
            case_uuid ensemble_name)
         vector_name
         (Frequency_from_string_value
            (match resampling_frequency with
             | Some f => schemas.value f
             | None => "dummy"
             end))
         realizations) = Returned sumo_vec_arr ->
    exists ret_arr,
      run h (get_realizations_vector_data authenticated_user case_uuid
               ensemble_name vector_name resampling_frequency realizations
               relative_to_timestamp) = Returned ret_arr /\
      Forall2 copied sumo_vec_arr ret_arr.
Proof.
  intros OT h user case_uuid ensemble_name vector_name freq reals rel arr Hfetch.
  destruct (realizations_vector_data_run h user case_uuid ensemble_name
              vector_name freq reals rel) as [_ Hrun].
  cbv zeta in Hrun. rewrite Hfetch in Hrun.
  exists (map to_realization_data arr). split; [exact Hrun | apply copied_map].
Qed.

Lemma realization_data_copies_fetched_series_witness :
  exists ret_arr,
    run Demo.store
      (get_realizations_vector_data Demo.user "case" "ens" "FOPR"
         (Some schemas.MONTHLY) (Some [0; 1]) None) = Returned ret_arr /\
    Forall2 copied Demo.ensemble ret_arr.
Proof.
  apply (realization_data_copies_fetched_series Demo.types Demo.store
           Demo.user "case" "ens" "FOPR" (Some schemas.MONTHLY)
           (Some [0; 1]) None Demo.ensemble).
  reflexivity.
Defined.

(** C2: when [resampling_frequency] is not specified, the one request of
    [get_realizations_vector_data] is a fetch in raw mode (no frequency
    reaches the store), and the series are returned with their own
    timestamps and values, unmodified. *)
Theorem unspecified_frequency_fetches_raw :
  forall (OT : OpaqueTypes) (h : handler)
    (authenticated_user : AuthenticatedUser) (case_uuid ensemble_name : string)
    (vector_name : string) (realizations : option (list Z))
    (relative_to_timestamp : option timestamp),
    let access :=
      Build_SummaryAccess (get_sumo_access_token authenticated_user)
        case_uuid ensemble_name in
    calls h (get_realizations_vector_data authenticated_user case_uuid
               ensemble_name vector_name None realizations
               relative_to_timestamp) =
    [get_vector access vector_name None realizations] /\
    forall sumo_vec_arr,
      h (get_vector access vector_name None realizations) =
      Returned sumo_vec_arr ->
      exists ret_arr,
        run h (get_realizations_vector_data authenticated_user case_uuid
                 ensemble_name vector_name None realizations
                 relative_to_timestamp) = Returned ret_arr /\
        map schemas.timestamps ret_arr = map timestamps sumo_vec_arr /\
        map schemas.values ret_arr = map values sumo_vec_arr.
Proof.
  intros OT h user case_uuid ensemble_name vector_name reals rel access.
  destruct (realizations_vector_data_run h user case_uuid ensemble_name
              vector_name None reals rel) as [Hcalls Hrun].
  cbv zeta in Hcalls, Hrun. fold access in Hcalls, Hrun.
  change (Frequency_from_string_value "dummy") with (@None Frequency)
    in Hcalls, Hrun.
  split; [exact Hcalls |].
  intros arr Hfetch. rewrite Hfetch in Hrun.
  exists (map to_realization_data arr). split; [exact Hrun |].
  rewrite !map_map. split; reflexivity.
Qed.

Lemma unspecified_frequency_fetches_raw_witness :
  exists ret_arr,
    run Demo.store
      (get_realizations_vector_data Demo.user "case" "ens" "FOPR" None None
         None) = Returned ret_arr /\
    map schemas.timestamps ret_arr = [[1; 2; 3]; [2; 3; 4]].
Proof.
  destruct (unspecified_frequency_fetches_raw Demo.types Demo.store Demo.user
              "case" "ens" "FOPR" None None) as [_ Hret].
  destruct (Hret Demo.ensemble) as [ret_arr [Hrun [Hts _]]].
  - reflexivity.
  - exists ret_arr. split; [exact Hrun | exact Hts].
Defined.

(** ** Statistics *)

(** C1: when the statistics computation yields no result (the call of
    [compute_vector_statistics] answers with a falsy value),
    [get_statistical_vector_data] raises the not-found [HTTPException] (status
    404) and returns no payload at all. *)
Theorem no_statistics_is_not_found :
  forall (OT : OpaqueTypes) (h : handler)
    (authenticated_user : AuthenticatedUser) (case_uuid ensemble_name : string)
    (vector_name : string) (resampling_frequency : schemas.Frequency)
    (statistic_functions : option (list schemas.StatisticFunction))
    (realizations : option (list Z)) (relative_to_timestamp : option timestamp)
    (vector_table : Table) (vector_metadata : VectorMetadata),
    h (get_vector_table
         (Build_SummaryAccess (get_sumo_access_token authenticated_user)
            case_uuid ensemble_name)
         vector_name
         (Frequency_from_string_value (schemas.value resampling_frequency))
         realizations) = Returned (vector_table, vector_metadata) ->
    h (compute_vector_statistics vector_table vector_name
         (converters.to_service_statistic_functions statistic_functions)) =
    Returned None ->
    run h (get_statistical_vector_data authenticated_user case_uuid
             ensemble_name vector_name resampling_frequency
             statistic_functions realizations relative_to_timestamp) =
    Raised (HTTPException 404 "Could not compute statistics") /\
    forall ret_data,
      run h (get_statistical_vector_data authenticated_user case_uuid
               ensemble_name vector_name resampling_frequency
               statistic_functions realizations relative_to_timestamp) <>
      Returned ret_data.
Proof.
  intros OT h user case_uuid ensemble_name vector_name freq funcs reals rel
    table meta Htable Hstat.
  assert (Hrun :
    run h (get_statistical_vector_data user case_uuid ensemble_name
             vector_name freq funcs reals rel) =
    Raised (HTTPException 404 "Could not compute statistics")).
  { unfold get_statistical_vector_data. simpl.
    rewrite Htable. simpl. rewrite Hstat. reflexivity. }
  split; [exact Hrun |].
  intros ret_data Hret. rewrite Hrun in Hret. discriminate Hret.
Qed.

Lemma no_statistics_is_not_found_witness :
  run Demo.store
    (get_statistical_vector_data Demo.user "case" "ens" "FOPR" schemas.DAILY
       (Some [schemas.MEAN]) None None) =
  Raised (HTTPException 404 "Could not compute statistics").
Proof.
  apply (no_statistics_is_not_found Demo.types Demo.store Demo.user "case"
           "ens" "FOPR" schemas.DAILY (Some [schemas.MEAN]) None None
           Demo.ensemble Demo.rate_metadata).
  - reflexivity.
  - reflexivity.
Defined.



(** ** The reference timestamp *)

(** [relative_to_timestamp] is accepted and never read: the endpoint is the
    same program whatever it holds. *)
Lemma relative_to_timestamp_is_ignored (OT : OpaqueTypes)
  (authenticated_user : AuthenticatedUser) (case_uuid ensemble_name : string)
  (vector_name : string) (resampling_frequency : option schemas.Frequency)
  (realizations : option (list Z))
  (relative_to_timestamp relative_to_timestamp' : option timestamp) :
  get_realizations_vector_data authenticated_user case_uuid ensemble_name
    vector_name resampling_frequency realizations relative_to_timestamp =
  get_realizations_vector_data authenticated_user case_uuid ensemble_name
    vector_name resampling_frequency realizations relative_to_timestamp'.
Proof.
  reflexivity.
Qed.

(** C3: with a reference timestamp, every returned realization should have
    its baseline subtracted from every value, and a realization without a
    baseline should be absent.  On the example ensemble, fetched raw with
    reference timestamp 1, realization 0 has baseline 5 and realization 1
    has none; [get_realizations_vector_data] returns both with the fetched
    values, so neither is treated as asked. *)
Theorem reference_timestamp_is_not_applied :
  exists ret_arr,
    run Demo.store
      (get_realizations_vector_data Demo.user "case" "ens" "FOPR" None None
         (Some 1)) = Returned ret_arr /\
    map schemas.values ret_arr = map values Demo.ensemble /\
    BaselineNormalizer.baseline Demo.realization_0 1 = Some (5#1) /\
    BaselineNormalizer.baseline Demo.realization_1 1 = None /\
    ~ BaselineNormalizer.relative_to Demo.realization_0 Demo.realization_0 1
        ret_arr /\
    ~ BaselineNormalizer.relative_to Demo.realization_1 Demo.realization_1 1
        ret_arr.
Proof.
  eexists. split; [reflexivity |].
  split; [reflexivity |]. split; [reflexivity |]. split; [reflexivity |].
  split.
  - unfold BaselineNormalizer.relative_to.
    change (BaselineNormalizer.baseline Demo.realization_0 1)
      with (Some (5#1)).
    intros [d [Hin [Hid Hvalues]]].
    destruct Hin as [Hd | [Hd | []]]; subst d.
    + simpl in Hvalues. inversion Hvalues as [| v w vs ws Hhead Htail]; subst.
      unfold Qeq in Hhead. simpl in Hhead. discriminate Hhead.
    + simpl in Hid. discriminate Hid.
  - unfold BaselineNormalizer.relative_to.
    change (BaselineNormalizer.baseline Demo.realization_1 1)
      with (@None Q).
    intros Habsent.
    apply (Habsent (to_realization_data Demo.realization_1)).
    + right. left. reflexivity.
    + reflexivity.
Qed.

(** ** Timestamps *)

(** C4: [get_timestamps] should return the intersection of the raw timestamp
    sets when no frequency is given.  For the example ensemble that is
    2, 3; the endpoint makes no request and returns [None], for every store
    and every input. *)
Theorem timestamps_are_never_computed :
  TimestampAligner.raw_intersection (map timestamps Demo.ensemble) = [2; 3] /\
  forall (OT : OpaqueTypes) (h : handler)
    (authenticated_user : AuthenticatedUser) (case_uuid ensemble_name : string)
    (resampling_frequency : option schemas.Frequency)
    (realizations : option (list Z)),
    run h (get_timestamps authenticated_user case_uuid ensemble_name
             resampling_frequency realizations) = Returned None /\
    calls h (get_timestamps authenticated_user case_uuid ensemble_name
               resampling_frequency realizations) = [].
Proof.
  split; [reflexivity |]. intros. split; reflexivity.
Qed.

(** ** Calculated vectors *)

(** The endpoint never asks the store for anything, and what it returns does
    not depend on the expression. *)
Lemma calculated_vector_data_reads_nothing (OT : OpaqueTypes) (h : handler)
  (authenticated_user : AuthenticatedUser) (case_uuid ensemble_name : string)
  (expression : VectorExpressionInfo)
  (resampling_frequency : option schemas.Frequency)
  (relative_to_timestamp : option timestamp) :
  (forall c,
     In c (calls h (get_realizations_calculated_vector_data authenticated_user
                      case_uuid ensemble_name expression resampling_frequency
                      relative_to_timestamp)) ->
     exists what, c = print what) /\
  (forall ret,
     run h (get_realizations_calculated_vector_data authenticated_user
              case_uuid ensemble_name expression resampling_frequency
              relative_to_timestamp) = Returned ret ->
     ret = "hei").
Proof.
  unfold get_realizations_calculated_vector_data. simpl. split.
  - intros c [Hc | Hc]; [eexists; symmetry; exact Hc |].
    destruct (h (print (the_expression expression))); simpl in Hc;
      [| contradiction].
    destruct Hc as [Hc | Hc]; [eexists; symmetry; exact Hc |].
    destruct (h (print (the_type_of expression))); simpl in Hc; contradiction.
  - intros ret Hret.
    destruct (h (print (the_expression expression))); [| discriminate Hret].
    destruct (h (print (the_type_of expression))); [| discriminate Hret].
    simpl in Hret. now inversion Hret.
Qed.

(** C5: [get_realizations_calculated_vector_data] should return the
    expression evaluated per realization and grid timestamp.  Asked for
    "A / B" on the example store it prints the expression and its type,
    fetches nothing and returns the text "hei". *)
Theorem calculated_vector_data_is_a_placeholder :
  run Demo.store
    (get_realizations_calculated_vector_data Demo.user "case" "ens"
       Demo.a_over_b None None) = Returned "hei" /\
  calls Demo.store
    (get_realizations_calculated_vector_data Demo.user "case" "ens"
       Demo.a_over_b None None) =
  [print (the_expression Demo.a_over_b); print (the_type_of Demo.a_over_b)].
Proof.
  split; reflexivity.
Qed.

(** ** Rate resampling *)

Module ResamplerFacts.

Import Resampler.

Lemma increasing_tail (t0 : timestamp) (ts : list timestamp) :
  strictly_increasing (t0 :: ts) = true -> strictly_increasing ts = true.
Proof.
  destruct ts as [| t1 ts]; [reflexivity |].
  intros H. change ((t0 <? t1) && strictly_increasing (t1 :: ts) = true) in H.
  now apply andb_true_iff in H.
Qed.

Lemma increasing_head (ts : list timestamp) :
  forall t0, strictly_increasing (t0 :: ts) = true ->
             forall t, In t ts -> t0 < t.
Proof.
  induction ts as [| t1 ts IH]; intros t0 H t Hin; [contradiction |].
  change ((t0 <? t1) && strictly_increasing (t1 :: ts) = true) in H.
  apply andb_true_iff in H. destruct H as [Hlt Hrest].
  apply Z.ltb_lt in Hlt.
  destruct Hin as [-> | Hin]; [exact Hlt |].
  specialize (IH t1 Hrest t Hin). lia.
Qed.

(** Points after [t] leave the held value alone. *)
Lemma hold_past (t : timestamp) (raw : RawSeries) :
  (forall point, In point raw -> t < fst point) ->
  forall held, fold_left (hold_step t) raw held = held.
Proof.
  induction raw as [| point raw IH]; intros Hafter held; [reflexivity |].
  simpl. rewrite IH by (intros q Hq; apply Hafter; now right).
  unfold hold_step.
  assert (Hlt : t < fst point) by (apply Hafter; now left).
  apply Z.leb_gt in Hlt. now rewrite Hlt.
Qed.

(** On an increasing series with a point at or before [t], what is held in
    the end is the value of the latest such point. *)
Lemma hold_latest (t : timestamp) (raw : RawSeries) :
  strictly_increasing (map fst raw) = true ->
  (exists point, In point raw /\ fst point <= t) ->
  forall held,
  exists tp v,
    In (tp, v) raw /\ tp <= t /\
    (forall point, In point raw -> fst point <= t -> fst point <= tp) /\
    fold_left (hold_step t) raw held = Some v.
Proof.
  induction raw as [| [ts v] raw IH]; intros Hinc [point [Hin Hle]] held.
  - contradiction.
  - simpl map in Hinc.
    assert (Hhead : forall q, In q raw -> ts < fst q).
    { intros q Hq. apply (increasing_head _ _ Hinc). now apply in_map. }
    apply increasing_tail in Hinc. simpl fold_left.
    destruct (existsb (fun q => fst q <=? t) raw) eqn:Hlater.
    + apply existsb_exists in Hlater. destruct Hlater as [q [Hq Hqle]].
      apply Z.leb_le in Hqle.
      destruct (IH Hinc (ex_intro _ q (conj Hq Hqle))
                  (hold_step t held (ts, v)))
        as [tp [w [Htp [Htple [Hmax Hfold]]]]].
      exists tp, w. split; [now right |]. split; [exact Htple |].
      split; [| exact Hfold].
      intros q' [<- | Hq'] Hq'le.
      * simpl. specialize (Hhead _ Htp). simpl in Hhead. lia.
      * now apply Hmax.
    + assert (Hafter : forall q, In q raw -> t < fst q).
      { intros q Hq. apply Z.leb_gt.
        destruct (fst q <=? t) eqn:Hq'; [| reflexivity].
        rewrite <- Hlater. symmetry. apply existsb_exists. now exists q. }
      assert (Hts : ts <= t).
      { destruct Hin as [<- | Hin]; [exact Hle |].
        specialize (Hafter _ Hin). lia. }
      rewrite (hold_past t raw Hafter).
      exists ts, v. split; [now left |]. split; [exact Hts |]. split.
      * intros q' [<- | Hq'] Hq'le; [simpl; lia |].
        specialize (Hafter _ Hq'). lia.
      * unfold hold_step. simpl. apply Z.leb_le in Hts. now rewrite Hts.
Qed.

End ResamplerFacts.

(** C7: for a rate series with at least one raw point (timestamps strictly
    increasing), resampling gives one entry per grid timestamp; at a grid
    timestamp at or after the first raw point the value is that of the last
    raw point at or before it (previous-value hold), and strictly before the
    first raw point the value is absent. *)
Theorem rate_resampling_holds_previous_value :
  forall (t0 : timestamp) (v0 : Q) (later : Resampler.RawSeries)
    (grid : list timestamp),
    let raw := (t0, v0) :: later in
    Resampler.strictly_increasing (map fst raw) = true ->
    map fst (Resampler.resample raw (Some grid) true) = grid /\
    forall t x,
      In (t, x) (Resampler.resample raw (Some grid) true) ->
      (t0 <= t ->
       exists tp v,
         In (tp, v) raw /\ tp <= t /\
         (forall t' v', In (t', v') raw -> t' <= t -> t' <= tp) /\
         x = Some v) /\
      (t < t0 -> x = None).
Proof.
  intros t0 v0 later grid raw Hinc. split.
  - unfold Resampler.resample. rewrite map_map. simpl. apply map_id.
  - intros t x Hin. unfold Resampler.resample in Hin.
    apply in_map_iff in Hin. destruct Hin as [t' [Heq _]].
    inversion Heq; subst t' x; clear Heq.
    unfold Resampler.resample_at, Resampler.step_hold. split.
    + intros Hle.
      destruct (ResamplerFacts.hold_latest t raw Hinc
                  (ex_intro _ (t0, v0) (conj (or_introl eq_refl) Hle)) None)
        as [tp [v [Htp [Htple [Hmax Hfold]]]]].
      exists tp, v. split; [exact Htp |]. split; [exact Htple |].
      split; [| exact Hfold].
      intros t' v' Hin' Hle'. exact (Hmax (t', v') Hin' Hle').
    + intros Hlt. apply ResamplerFacts.hold_past.
      intros point [<- | Hpoint]; [exact Hlt |].
      assert (t0 < fst point).
      { apply (ResamplerFacts.increasing_head _ _ Hinc). now apply in_map. }
      lia.
Qed.

Lemma rate_resampling_holds_previous_value_witness :
  Resampler.resample [(1, 5#1); (3, 7#1)] (Some [0; 1; 2; 3; 4]) true =
  [(0, None); (1, Some (5#1)); (2, Some (5#1)); (3, Some (7#1));
   (4, Some (7#1))] /\
  map fst (Resampler.resample [(1, 5#1); (3, 7#1)] (Some [0; 1; 2; 3; 4]) true)
  = [0; 1; 2; 3; 4].
Proof.
  split; [reflexivity |].
  apply (rate_resampling_holds_previous_value 1 (5#1) [(3, 7#1)]
           [0; 1; 2; 3; 4]).
  reflexivity.
Defined.

(** ** Further facts about the endpoints *)

Section StatisticsFacts.

Context {OT : OpaqueTypes}.

(** The statistics endpoint, step by step: the table is fetched, then the
    statistics are computed, then the payload is converted; each step is
    reached only when the one before answered. *)
Lemma statistical_vector_data_run (h : handler)
  (authenticated_user : AuthenticatedUser) (case_uuid ensemble_name : string)
  (vector_name : string) (resampling_frequency : schemas.Frequency)
  (statistic_functions : option (list schemas.StatisticFunction))
  (realizations : option (list Z)) (relative_to_timestamp : option timestamp) :
  let fetch :=
    get_vector_table
      (Build_SummaryAccess (get_sumo_access_token authenticated_user)
         case_uuid ensemble_name)
      vector_name
      (Frequency_from_string_value (schemas.value resampling_frequency))
      realizations in
  let compute := fun vector_table =>
    compute_vector_statistics vector_table vector_name
      (converters.to_service_statistic_functions statistic_functions) in
  let endpoint :=
    get_statistical_vector_data authenticated_user case_uuid ensemble_name
      vector_name resampling_frequency statistic_functions realizations
      relative_to_timestamp in
  run h endpoint =
  match h fetch with
  | Raised e => Raised e
  | Returned (vector_table, vector_metadata) =>
      match h (compute vector_table) with
      | Raised e => Raised e
      | Returned None =>
          Raised (HTTPException 404 "Could not compute statistics")
      | Returned (Some statistics) =>
          h (to_api_vector_statistic_data statistics vector_metadata)
      end
  end /\
  calls h endpoint =
  fetch ::
  match h fetch with
  | Raised _ => []
  | Returned (vector_table, vector_metadata) =>
      compute vector_table ::
      match h (compute vector_table) with
      | Returned (Some statistics) =>
          [to_api_vector_statistic_data statistics vector_metadata]
      | _ => []
      end
  end.
Proof.
  intros fetch compute endpoint. subst endpoint.
  unfold get_statistical_vector_data. fold fetch. simpl.
  destruct (h fetch) as [[table meta] | e]; simpl; [| split; reflexivity].
  fold (compute table).
  destruct (h (compute table)) as [[stats |] | e]; simpl;
    try (split; reflexivity).
  destruct (h (to_api_vector_statistic_data stats meta));
    split; reflexivity.
Qed.

End StatisticsFacts.

(** X1: [get_vector_names_and_descriptions] makes exactly one request, for
    the vector names, whatever the store answers; when the store raises on
    it, the endpoint raises the same exception and returns no list. *)
Theorem vector_names_failure_is_raised :
  forall (OT : OpaqueTypes) (h : handler)
    (authenticated_user : AuthenticatedUser) (case_uuid ensemble_name : string)
    (exclude_all_values_zero exclude_all_values_constant : bool),
    let request :=
      get_vector_names
        (Build_SummaryAccess (get_sumo_access_token authenticated_user)
           case_uuid ensemble_name) in
    let endpoint :=
      get_vector_names_and_descriptions authenticated_user case_uuid
        ensemble_name exclude_all_values_zero exclude_all_values_constant in
    calls h endpoint = [request] /\
    forall e : exn,
      h request = Raised e ->
      run h endpoint = Raised e /\
      forall ret_arr, run h endpoint <> Returned ret_arr.
Proof.
  intros OT h user case_uuid ensemble_name z k request endpoint.
  subst endpoint. unfold get_vector_names_and_descriptions. fold request.
  simpl. split.
  - destruct (h request); reflexivity.
  - intros e Hfail. rewrite Hfail. split; [reflexivity |].
    intros ret_arr Hret. discriminate Hret.
Qed.

Lemma vector_names_failure_is_raised_witness :
  run Demo.unreachable_store
    (get_vector_names_and_descriptions Demo.user "case" "ens" false true) =
  Raised (CollaboratorError "sumo unreachable").
Proof.
  apply (vector_names_failure_is_raised Demo.types Demo.unreachable_store
           Demo.user "case" "ens" false true).
  reflexivity.
Defined.

(** X2: when the store raises on the fetch of
    [get_realizations_vector_data], the endpoint raises the same exception,
    whatever the frequency, and the fetch is the only request made. *)
Theorem realizations_fetch_failure_is_raised :
  forall (OT : OpaqueTypes) (h : handler)
    (authenticated_user : AuthenticatedUser) (case_uuid ensemble_name : string)
    (vector_name : string) (resampling_frequency : option schemas.Frequency)
    (realizations : option (list Z)) (relative_to_timestamp : option timestamp)
    (e : exn),
    let request :=
      get_vector
        (Build_SummaryAccess (get_sumo_access_token authenticated_user)
           case_uuid ensemble_name)
        vector_name
        (Frequency_from_string_value
           (match resampling_frequency with
            | Some f => schemas.value f
            | None => "dummy"
            end))
        realizations in
    h request = Raised e ->
    run h (get_realizations_vector_data authenticated_user case_uuid
             ensemble_name vector_name resampling_frequency realizations
             relative_to_timestamp) = Raised e /\
    calls h (get_realizations_vector_data authenticated_user case_uuid
               ensemble_name vector_name resampling_frequency realizations
               relative_to_timestamp) = [request].
Proof.
  intros OT h user case_uuid ensemble_name vector_name freq reals rel e
    request Hfail.
  destruct (realizations_vector_data_run h user case_uuid ensemble_name
              vector_name freq reals rel) as [Hcalls Hrun].
  cbv zeta in Hcalls, Hrun. fold request in Hcalls, Hrun.
  rewrite Hfail in Hrun. split; assumption.
Qed.

Lemma realizations_fetch_failure_is_raised_witness :
  run Demo.unreachable_store
    (get_realizations_vector_data Demo.user "case" "ens" "FOPR"
       (Some schemas.YEARLY) None None) =
  Raised (CollaboratorError "sumo unreachable").
Proof.
  apply (realizations_fetch_failure_is_raised Demo.types
           Demo.unreachable_store Demo.user "case" "ens" "FOPR"
           (Some schemas.YEARLY) None None
           (CollaboratorError "sumo unreachable")).
  reflexivity.
Defined.

(** X3: [get_realizations_vector_data] keeps the series aligned: when every
    fetched series has one value per timestamp, so has every returned
    record, and there are as many records as fetched series. *)
Theorem realization_data_stays_aligned :
  forall (OT : OpaqueTypes) (h : handler)
    (authenticated_user : AuthenticatedUser) (case_uuid ensemble_name : string)
    (vector_name : string) (resampling_frequency : option schemas.Frequency)
    (realizations : option (list Z)) (relative_to_timestamp : option timestamp)
    (sumo_vec_arr : list RealizationVector),
    h (get_vector
         (Build_SummaryAccess (get_sumo_access_token authenticated_user)
            case_uuid ensemble_name)
         vector_name
         (Frequency_from_string_value
            (match resampling_frequency with
             | Some f => schemas.value f
             | None => "dummy"
             end))
         realizations) = Returned sumo_vec_arr ->
    Forall aligned_series sumo_vec_arr ->
    exists ret_arr,
      run h (get_realizations_vector_data authenticated_user case_uuid
               ensemble_name vector_name resampling_frequency realizations
               relative_to_timestamp) = Returned ret_arr /\
      Forall aligned_data ret_arr /\
      List.length ret_arr = List.length sumo_vec_arr.
Proof.
  intros OT h user case_uuid ensemble_name vector_name freq reals rel arr
    Hfetch Haligned.
  destruct (realizations_vector_data_run h user case_uuid ensemble_name
              vector_name freq reals rel) as [_ Hrun].
  cbv zeta in Hrun. rewrite Hfetch in Hrun.
  exists (map to_realization_data arr). split; [exact Hrun |]. split.
  - clear Hrun Hfetch.
    induction Haligned as [| vec arr Hvec _ IH]; simpl; constructor.
    + exact Hvec.
    + exact IH.
  - apply length_map.
Qed.

Lemma realization_data_stays_aligned_witness :
  exists ret_arr,
    run Demo.store
      (get_realizations_vector_data Demo.user "case" "ens" "FOPR" None None
         None) = Returned ret_arr /\
    Forall aligned_data ret_arr /\
    List.length ret_arr = 2%nat.
Proof.
  apply (realization_data_stays_aligned Demo.types Demo.store Demo.user
           "case" "ens" "FOPR" None None None Demo.ensemble).
  - reflexivity.
  - repeat constructor.
Defined.

(** X4: [get_statistical_vector_data] returns a payload exactly when the
    table was fetched, the statistics computed from that table were truthy
    and the converter, given those statistics and the metadata fetched with
    the table, answered with that payload. *)
Theorem statistics_payload_comes_from_computed_statistics :
  forall (OT : OpaqueTypes) (h : handler)
    (authenticated_user : AuthenticatedUser) (case_uuid ensemble_name : string)
    (vector_name : string) (resampling_frequency : schemas.Frequency)
    (statistic_functions : option (list schemas.StatisticFunction))
    (realizations : option (list Z)) (relative_to_timestamp : option timestamp)
    (ret_data : VectorStatisticData),
    run h (get_statistical_vector_data authenticated_user case_uuid
             ensemble_name vector_name resampling_frequency
             statistic_functions realizations relative_to_timestamp) =
    Returned ret_data <->
    exists vector_table vector_metadata statistics,
      h (get_vector_table
           (Build_SummaryAccess (get_sumo_access_token authenticated_user)
              case_uuid ensemble_name)
           vector_name
           (Frequency_from_string_value (schemas.value resampling_frequency))
           realizations) = Returned (vector_table, vector_metadata) /\
      h (compute_vector_statistics vector_table vector_name
           (converters.to_service_statistic_functions statistic_functions)) =
      Returned (Some statistics) /\
      h (to_api_vector_statistic_data statistics vector_metadata) =
      Returned ret_data.
Proof.
  intros OT h user case_uuid ensemble_name vector_name freq funcs reals rel
    ret_data.
  destruct (statistical_vector_data_run h user case_uuid ensemble_name
              vector_name freq funcs reals rel) as [Hrun _].
  cbv zeta in Hrun. rewrite Hrun. clear Hrun. split.
  - destruct (h (get_vector_table _ _ _ _)) as [[table meta] | e] eqn:Hfetch;
      [| discriminate].
    destruct (h (compute_vector_statistics table _ _)) as [[stats |] | e]
      eqn:Hstat; try discriminate.
    intros Hconv. exists table, meta, stats.
    split; [reflexivity |]. split; [exact Hstat | exact Hconv].
  - intros [table [meta [stats [Hfetch [Hstat Hconv]]]]].
    rewrite Hfetch, Hstat. exact Hconv.
Qed.

Lemma statistics_payload_comes_from_computed_statistics_witness :
  run Demo.computing_store
    (get_statistical_vector_data Demo.user "case" "ens" "FOPR" schemas.DAILY
       (Some [schemas.MEAN; schemas.P90]) None None) =
  Returned [(MEAN, []); (P90, [])].
Proof.
  apply (statistics_payload_comes_from_computed_statistics Demo.types
           Demo.computing_store Demo.user "case" "ens" "FOPR" schemas.DAILY
           (Some [schemas.MEAN; schemas.P90]) None None).
  exists Demo.ensemble, Demo.rate_metadata, [(MEAN, []); (P90, [])].
  repeat split.
Defined.

(** X5: [get_statistical_vector_data] asks the converter for a payload only
    for statistics the computation returned, together with the metadata
    that came with the fetched table; after a failed fetch, a failed
    computation or a falsy result the converter is not called. *)
Theorem converter_sees_only_computed_statistics :
  forall (OT : OpaqueTypes) (h : handler)
    (authenticated_user : AuthenticatedUser) (case_uuid ensemble_name : string)
    (vector_name : string) (resampling_frequency : schemas.Frequency)
    (statistic_functions : option (list schemas.StatisticFunction))
    (realizations : option (list Z)) (relative_to_timestamp : option timestamp)
    (statistics : VectorStatistics) (vector_metadata : VectorMetadata),
    In (to_api_vector_statistic_data statistics vector_metadata)
       (calls h (get_statistical_vector_data authenticated_user case_uuid
                   ensemble_name vector_name resampling_frequency
                   statistic_functions realizations relative_to_timestamp)) ->
    exists vector_table,
      h (get_vector_table
           (Build_SummaryAccess (get_sumo_access_token authenticated_user)
              case_uuid ensemble_name)
           vector_name
           (Frequency_from_string_value (schemas.value resampling_frequency))
           realizations) = Returned (vector_table, vector_metadata) /\
      h (compute_vector_statistics vector_table vector_name
           (converters.to_service_statistic_functions statistic_functions)) =
      Returned (Some statistics).
Proof.
  intros OT h user case_uuid ensemble_name vector_name freq funcs reals rel
    stats meta.
  destruct (statistical_vector_data_run h user case_uuid ensemble_name
              vector_name freq funcs reals rel) as [_ Hcalls].
  cbv zeta in Hcalls. rewrite Hcalls. clear Hcalls.
  intros [Hin | Hin]; [discriminate Hin |].
  destruct (h (get_vector_table _ _ _ _)) as [[table meta'] | e] eqn:Hfetch;
    [| contradiction].
  destruct Hin as [Hin | Hin]; [discriminate Hin |].
  destruct (h (compute_vector_statistics table _ _)) as [[stats' |] | e]
    eqn:Hstat; try contradiction.
  destruct Hin as [Hin | []].
  inversion Hin; subst stats' meta'.
  exists table. split; [reflexivity | exact Hstat].
Qed.

Lemma converter_sees_only_computed_statistics_witness :
  exists vector_table,
    Demo.computing_store
      (get_vector_table (Build_SummaryAccess "token" "case" "ens") "FOPR"
         (Frequency_from_string_value "DAILY") None) =
    Returned (vector_table, Demo.rate_metadata).
Proof.
  destruct (converter_sees_only_computed_statistics Demo.types
              Demo.computing_store Demo.user "case" "ens" "FOPR"
              schemas.DAILY (Some [schemas.MIN]) None None
              [(MIN, [])] Demo.rate_metadata)
    as [vector_table [Hfetch _]].
  - right. right. left. reflexivity.
  - exists vector_table. exact Hfetch.
Defined.

(** X6: when the store raises on the fetch of the table,
    [get_statistical_vector_data] raises the same exception; the statistics
    are not computed and nothing else is requested. *)
Theorem table_fetch_failure_is_raised :
  forall (OT : OpaqueTypes) (h : handler)
    (authenticated_user : AuthenticatedUser) (case_uuid ensemble_name : string)
    (vector_name : string) (resampling_frequency : schemas.Frequency)
    (statistic_functions : option (list schemas.StatisticFunction))
    (realizations : option (list Z)) (relative_to_timestamp : option timestamp)
    (e : exn),
    let fetch :=
      get_vector_table
        (Build_SummaryAccess (get_sumo_access_token authenticated_user)
           case_uuid ensemble_name)
        vector_name
        (Frequency_from_string_value (schemas.value resampling_frequency))
        realizations in
    h fetch = Raised e ->
    run h (get_statistical_vector_data authenticated_user case_uuid
             ensemble_name vector_name resampling_frequency
             statistic_functions realizations relative_to_timestamp) =
    Raised e /\
    calls h (get_statistical_vector_data authenticated_user case_uuid
               ensemble_name vector_name resampling_frequency
               statistic_functions realizations relative_to_timestamp) =
    [fetch].
Proof.
  intros OT h user case_uuid ensemble_name vector_name freq funcs reals rel e
    fetch Hfail.
  destruct (statistical_vector_data_run h user case_uuid ensemble_name
              vector_name freq funcs reals rel) as [Hrun Hcalls].
  cbv zeta in Hrun, Hcalls. fold fetch in Hrun, Hcalls.
  rewrite Hfail in Hrun, Hcalls. split; assumption.
Qed.

Lemma table_fetch_failure_is_raised_witness :
  run Demo.unreachable_store
    (get_statistical_vector_data Demo.user "case" "ens" "FOPR"
       schemas.MONTHLY None None None) =
  Raised (CollaboratorError "sumo unreachable").
Proof.
  apply (table_fetch_failure_is_raised Demo.types Demo.unreachable_store
           Demo.user "case" "ens" "FOPR" schemas.MONTHLY None None None
           (CollaboratorError "sumo unreachable")).
  reflexivity.
Defined.

(** X7: when the table is fetched and the statistics computation raises,
    [get_statistical_vector_data] raises that exception (not the 404 of a
    falsy result) and the converter is not called. *)
Theorem statistics_failure_is_raised :
  forall (OT : OpaqueTypes) (h : handler)
    (authenticated_user : AuthenticatedUser) (case_uuid ensemble_name : string)
    (vector_name : string) (resampling_frequency : schemas.Frequency)
    (statistic_functions : option (list schemas.StatisticFunction))
    (realizations : option (list Z)) (relative_to_timestamp : option timestamp)
    (vector_table : Table) (vector_metadata : VectorMetadata) (e : exn),
    let fetch :=
      get_vector_table
        (Build_SummaryAccess (get_sumo_access_token authenticated_user)
           case_uuid ensemble_name)
        vector_name
        (Frequency_from_string_value (schemas.value resampling_frequency))
        realizations in
    let compute :=
      compute_vector_statistics vector_table vector_name
        (converters.to_service_statistic_functions statistic_functions) in
    h fetch = Returned (vector_table, vector_metadata) ->
    h compute = Raised e ->
    run h (get_statistical_vector_data authenticated_user case_uuid
             ensemble_name vector_name resampling_frequency
             statistic_functions realizations relative_to_timestamp) =
    Raised e /\
    calls h (get_statistical_vector_data authenticated_user case_uuid
               ensemble_name vector_name resampling_frequency
               statistic_functions realizations relative_to_timestamp) =
    [fetch; compute].
Proof.
  intros OT h user case_uuid ensemble_name vector_name freq funcs reals rel
    table meta e fetch compute Hfetch Hfail.
  destruct (statistical_vector_data_run h user case_uuid ensemble_name
              vector_name freq funcs reals rel) as [Hrun Hcalls].
  cbv zeta in Hrun, Hcalls. fold fetch in Hrun, Hcalls.
  rewrite Hfetch in Hrun, Hcalls. fold compute in Hrun, Hcalls.
  rewrite Hfail in Hrun, Hcalls. split; assumption.
Qed.

Lemma statistics_failure_is_raised_witness :
  run Demo.failing_statistics_store
    (get_statistical_vector_data Demo.user "case" "ens" "FOPR"
       schemas.DAILY None None None) =
  Raised (CollaboratorError "statistics failed").
Proof.
  apply (statistics_failure_is_raised Demo.types
           Demo.failing_statistics_store Demo.user "case" "ens" "FOPR"
           schemas.DAILY None None None Demo.ensemble Demo.rate_metadata
           (CollaboratorError "statistics failed")).
  - reflexivity.
  - reflexivity.
Defined.

(** X8: [relative_to_timestamp] has no effect on
    [get_statistical_vector_data]: with any two reference timestamps, or
    none, the endpoint makes the same requests and has the same outcome. *)
Theorem statistics_ignore_reference_timestamp :
  forall (OT : OpaqueTypes) (h : handler)
    (authenticated_user : AuthenticatedUser) (case_uuid ensemble_name : string)
    (vector_name : string) (resampling_frequency : schemas.Frequency)
    (statistic_functions : option (list schemas.StatisticFunction))
    (realizations : option (list Z))
    (relative_to_timestamp relative_to_timestamp' : option timestamp),
    run h (get_statistical_vector_data authenticated_user case_uuid
             ensemble_name vector_name resampling_frequency
             statistic_functions realizations relative_to_timestamp) =
    run h (get_statistical_vector_data authenticated_user case_uuid
             ensemble_name vector_name resampling_frequency
             statistic_functions realizations relative_to_timestamp') /\
    calls h (get_statistical_vector_data authenticated_user case_uuid
               ensemble_name vector_name resampling_frequency
               statistic_functions realizations relative_to_timestamp) =
    calls h (get_statistical_vector_data authenticated_user case_uuid
               ensemble_name vector_name resampling_frequency
               statistic_functions realizations relative_to_timestamp').
Proof.
  intros OT h user case_uuid ensemble_name vector_name freq funcs reals
    rel rel'.
  destruct (statistical_vector_data_run h user case_uuid ensemble_name
              vector_name freq funcs reals rel) as [Hrun Hcalls].
  destruct (statistical_vector_data_run h user case_uuid ensemble_name
              vector_name freq funcs reals rel') as [Hrun' Hcalls'].
  cbv zeta in Hrun, Hcalls, Hrun', Hcalls'.
  rewrite Hrun, Hrun', Hcalls, Hcalls'. split; reflexivity.
Qed.

(** X9: for the same user, case, ensemble, vector, frequency and realization
    subset, [get_statistical_vector_data] fetches its table with the very
    arguments with which [get_realizations_vector_data] fetches its series:
    the same handle, vector name, service frequency and realizations. *)
Theorem statistics_and_realizations_fetch_alike :
  forall (OT : OpaqueTypes) (h h' : handler)
    (authenticated_user : AuthenticatedUser) (case_uuid ensemble_name : string)
    (vector_name : string) (resampling_frequency : schemas.Frequency)
    (statistic_functions : option (list schemas.StatisticFunction))
    (realizations : option (list Z))
    (relative_to_timestamp relative_to_timestamp' : option timestamp),
    exists access sumo_freq,
      calls h (get_realizations_vector_data authenticated_user case_uuid
                 ensemble_name vector_name (Some resampling_frequency)
                 realizations relative_to_timestamp) =
      [get_vector access vector_name sumo_freq realizations] /\
      hd_error
        (calls h' (get_statistical_vector_data authenticated_user case_uuid
                     ensemble_name vector_name resampling_frequency
                     statistic_functions realizations
                     relative_to_timestamp')) =
      Some (get_vector_table access vector_name sumo_freq realizations).
Proof.
  intros OT h h' user case_uuid ensemble_name vector_name freq funcs reals
    rel rel'.
  destruct (realizations_vector_data_run h user case_uuid ensemble_name
              vector_name (Some freq) reals rel) as [Hcalls _].
  destruct (statistical_vector_data_run h' user case_uuid ensemble_name
              vector_name freq funcs reals rel') as [_ Hcalls'].
  cbv zeta in Hcalls, Hcalls'.
  eexists. eexists. split; [exact Hcalls |].
  rewrite Hcalls'. reflexivity.
Qed.

(** X10: every request an endpoint makes to the series store goes through
    the handle built from the caller's own access token and the requested
    case and ensemble; no endpoint reads another case or ensemble, or uses
    another token. *)
Theorem store_requests_are_scoped :
  forall (OT : OpaqueTypes) (h : handler)
    (authenticated_user : AuthenticatedUser) (case_uuid ensemble_name : string)
    (zero constant : bool) (vector_name : string)
    (optional_frequency : option schemas.Frequency)
    (resampling_frequency : schemas.Frequency)
    (statistic_functions : option (list schemas.StatisticFunction))
    (realizations : option (list Z)) (relative_to_timestamp : option timestamp)
    (expression : VectorExpressionInfo),
    scoped_to authenticated_user case_uuid ensemble_name
      (calls h (get_vector_names_and_descriptions authenticated_user
                  case_uuid ensemble_name zero constant)) /\
    scoped_to authenticated_user case_uuid ensemble_name
      (calls h (get_realizations_vector_data authenticated_user case_uuid
                  ensemble_name vector_name optional_frequency realizations
                  relative_to_timestamp)) /\
    scoped_to authenticated_user case_uuid ensemble_name
      (calls h (get_statistical_vector_data authenticated_user case_uuid
                  ensemble_name vector_name resampling_frequency
                  statistic_functions realizations relative_to_timestamp)) /\
    scoped_to authenticated_user case_uuid ensemble_name
      (calls h (get_realizations_calculated_vector_data authenticated_user
                  case_uuid ensemble_name expression optional_frequency
                  relative_to_timestamp)).
Proof.
  intros OT h user case_uuid ensemble_name zero constant vector_name ofreq
    freq funcs reals rel expression.
  split; [| split; [| split]]; intros c access Hin Haccess.
  - unfold get_vector_names_and_descriptions in Hin. simpl in Hin.
    destruct Hin as [<- | Hin]; [now inversion Haccess |].
    destruct (h (get_vector_names _)); simpl in Hin; contradiction.
  - destruct (realizations_vector_data_run h user case_uuid ensemble_name
                vector_name ofreq reals rel) as [Hcalls _].
    cbv zeta in Hcalls. rewrite Hcalls in Hin.
    destruct Hin as [<- | []]. now inversion Haccess.
  - destruct (statistical_vector_data_run h user case_uuid ensemble_name
                vector_name freq funcs reals rel) as [_ Hcalls].
    cbv zeta in Hcalls. rewrite Hcalls in Hin. clear Hcalls.
    destruct Hin as [<- | Hin]; [now inversion Haccess |].
    destruct (h (get_vector_table _ _ _ _)) as [[table meta] | e];
      [| contradiction].
    destruct Hin as [<- | Hin]; [discriminate Haccess |].
    destruct (h (compute_vector_statistics table _ _)) as [[stats |] | e];
      try contradiction.
    destruct Hin as [<- | []]. discriminate Haccess.
  - destruct (calculated_vector_data_reads_nothing OT h user case_uuid
                ensemble_name expression ofreq rel) as [Hprints _].
    destruct (Hprints c Hin) as [what ->]. discriminate Haccess.
Qed.

Lemma store_requests_are_scoped_witness :
  Build_SummaryAccess "token" "other case" "ens" =
  Build_SummaryAccess (get_sumo_access_token Demo.user) "other case" "ens".
Proof.
  destruct (store_requests_are_scoped Demo.types Demo.store Demo.user
              "other case" "ens" false false "FOPR" None schemas.DAILY None
              None None Demo.a_over_b) as [_ [Hscoped _]].
  apply (Hscoped
           (get_vector (Build_SummaryAccess "token" "other case" "ens")
              "FOPR" None None)).
  - left. reflexivity.
  - reflexivity.
Defined.
